(** * Declaration classification of the interface-definition tools

    A shallow embedding of the visitor callbacks of [Sources/idt/idt.cc]
    (both revisions: the one with [-annotate-classes] and the one with
    [-ignore]), of [Sources/libtool/libtool.cc] (report only) and of the
    libtool revision that attaches fix-its.

    A callback inspects one clang declaration through a handful of
    accessors, walks a list of early [return true;] guards and, when no
    guard fires, reports one remark.  Here a declaration is the record of
    the answers of those accessors, and a callback is a function from that
    record to the remark it reports.  Every callback returns [true] (the
    traversal always continues), so the return value is not carried; the
    trace written to [llvm::dbgs()] is left out. *)

From Stdlib Require Import Ascii String ZArith Bool List.
From stdpp Require Import base gmap strings.

Local Open Scope string_scope.
Local Open Scope Z_scope.

(** ** The part of clang the callbacks look at *)

(** [clang::SourceLocation]: the raw 32-bit encoding of an offset into
    the source manager's address space; the raw value 0 is the invalid
    location. *)
Definition SourceLocation := Z.

Definition isInvalid (L : SourceLocation) : bool := L =? 0.

(** [L.ID = ID + Offset] on the unsigned 32-bit encoding. *)
Definition getLocWithOffset (L : SourceLocation) (Offset : Z) : SourceLocation :=
  (L + Offset) mod 2 ^ 32.

(** [clang::Decl::Kind], restricted to the kinds the callbacks are
    written for. *)
Inductive DeclKind :=
  | Function | CXXMethod | CXXRecord | Var | ClassTemplateSpecialization.

Inductive AccessSpecifier := AS_public | AS_protected | AS_private | AS_none.

Inductive FriendObjectKind := FOK_None | FOK_Declared | FOK_Undeclared.

Inductive TemplatedKind :=
  | TK_NonTemplate
  | TK_FunctionTemplate
  | TK_MemberSpecialization
  | TK_FunctionTemplateSpecialization
  | TK_DependentFunctionTemplateSpecialization.

Inductive TemplateSpecializationKind :=
  | TSK_Undeclared
  | TSK_ImplicitInstantiation
  | TSK_ExplicitSpecialization
  | TSK_ExplicitInstantiationDeclaration
  | TSK_ExplicitInstantiationDefinition.

Inductive TagKind := TTK_Struct | TTK_Interface | TTK_Union | TTK_Class.

Inductive Attr := DLLExportAttr | DLLImportAttr | VisibilityAttr.

(** The expansion location of the declaration's begin location
    ([get_location]) as far as the callbacks query it. *)
Record FullSourceLoc := {
  getFilename : string;                 (* source_manager_.getFilename(location) *)
  isInSystemHeader : bool;              (* source_manager_.isInSystemHeader(location) *)
  getExpansionLineNumber : N;
  getExpansionColumnNumber : N;
}.

(** One visited declaration: the answer of every accessor a callback
    calls on it.  Accessors that a declaration kind does not have are
    never read by the callbacks of that kind. *)
Record Decl := {
  kind : DeclKind;
  getNameAsString : string;             (* the bare identifier *)
  getQualifier : list string;           (* enclosing scopes, outermost first *)
  get_location : FullSourceLoc;
  getBeginLoc : SourceLocation;
  has_DLLExportAttr : bool;
  has_DLLImportAttr : bool;
  has_VisibilityAttr : bool;
  (* FunctionDecl *)
  isDependentContext : bool;
  doesThisDeclarationHaveABody : bool;
  hasBody : bool;                       (* some redeclaration has a body *)
  getFriendObjectKind : FriendObjectKind;
  isDeleted : bool;
  isDefaulted : bool;
  getTemplatedKind : TemplatedKind;
  getInnerLocStart : SourceLocation;    (* begin ignoring outer template headers *)
  (* CXXMethodDecl *)
  getAccess : AccessSpecifier;
  isPure : bool;
  (* CXXRecordDecl *)
  isCompleteDefinition : bool;
  parent_isa_RecordDecl : bool;         (* llvm::isa<RecordDecl>(getParent()) *)
  getTagKind : TagKind;
  getIncludeLoc : SourceLocation;       (* getIncludeLoc(getFileID(getBeginLoc())) *)
  getTemplateSpecializationKind : TemplateSpecializationKind;
  (* ClassTemplateSpecializationDecl *)
  specialized_template_isStruct : bool; (* getSpecializedTemplate()->getTemplatedDecl()->isStruct() *)
  getExternLoc : SourceLocation;
  (* VarDecl *)
  hasExternalStorage : bool;
}.

Definition hasAttr (A : Attr) (D : Decl) : bool :=
  match A with
  | DLLExportAttr => has_DLLExportAttr D
  | DLLImportAttr => has_DLLImportAttr D
  | VisibilityAttr => has_VisibilityAttr D
  end.

Definition isStruct (D : Decl) : bool :=
  match getTagKind D with TTK_Struct => true | _ => false end.

Definition isUnion (D : Decl) : bool :=
  match getTagKind D with TTK_Union => true | _ => false end.

(** [llvm::dyn_cast<clang::CXXMethodDecl>(FD)]: the declaration itself
    when it is a method, null otherwise. *)
Definition dyn_cast_CXXMethodDecl (FD : Decl) : option Decl :=
  match kind FD with CXXMethod => Some FD | _ => None end.

Definition isa_CXXMethodDecl (FD : Decl) : bool :=
  match kind FD with CXXMethod => true | _ => false end.

(** [llvm::isa<clang::FriendDecl>(FD)] on a [FunctionDecl *]: a
    [FriendDecl] is not a [FunctionDecl], so the test fails on every
    declaration the callback receives. *)
Definition isa_FriendDecl (FD : Decl) : bool := false.

Definition is_private (MD : Decl) : bool :=
  match getAccess MD with AS_private => true | _ => false end.

Definition is_FOK_None (FD : Decl) : bool :=
  match getFriendObjectKind FD with FOK_None => true | _ => false end.

Definition is_TK_NonTemplate (FD : Decl) : bool :=
  match getTemplatedKind FD with TK_NonTemplate => true | _ => false end.

Definition is_explicit_instantiation (CD : Decl) : bool :=
  match getTemplateSpecializationKind CD with
  | TSK_ExplicitInstantiationDeclaration => true
  | TSK_ExplicitInstantiationDefinition => true
  | _ => false
  end.

(** [llvm::StringRef::find]: position of the first occurrence, [None]
    for [npos]. *)
Definition find (s needle : string) : option nat := String.index 0 needle s.

Definition found (r : option nat) : bool :=
  match r with Some _ => true | None => false end.

(** ** What a callback reports *)

(** The remark a callback emits before it returns: none, "unexported
    public interface" with its insertion fix-it, or "exported private
    interface" (which carries no fix-it). *)
Inductive Verdict :=
  | Skip
  | FlagUnexported (insertion_point : SourceLocation) (text : string)
  | FlagOverExportedPrivate.

(** An early [if (c) return true;] in front of the rest of a callback. *)
Notation "'return_if' c ';;' k" := (if c then Skip else k)
  (at level 10, c at level 99, k at level 200, only parsing).

(** ** [idt.cc], the revision with [-annotate-classes] *)
Module Idt.

Record Options := {
  export_macro : string;
  apply_fixits : bool;
  inplace : bool;
  annotateClasses : bool;
}.

Definition kIgnoredFunctions : gset string :=
  {[ "_BitScanForward"; "_BitScanForward64"; "_BitScanReverse";
     "_BitScanReverse64"; "__builtin_strlen" ]}.

Definition contains (set : gset string) (key : string) : bool :=
  bool_decide (key ∈ set).

(** The file-name test every callback of this revision starts with. *)
Definition in_lib_tools_or_def (filename : string) : bool :=
  found (find filename "/lib/") ||
  found (find filename "/tools/") ||
  found (find filename ".def").

Definition VisitFunctionDecl (opts : Options) (FD : Decl) : Verdict :=
  let location := get_location FD in
  let filename := getFilename location in
  return_if in_lib_tools_or_def filename ;;
  return_if isInSystemHeader location ;;
  return_if isDependentContext FD ;;
  return_if doesThisDeclarationHaveABody FD ;;
  return_if isa_FriendDecl FD ;;
  return_if negb (is_FOK_None FD) ;;
  return_if isDeleted FD || isDefaulted FD ;;
  let after_method_checks :=
    return_if hasAttr DLLExportAttr FD ||
              hasAttr DLLImportAttr FD ||
              hasAttr VisibilityAttr FD ;;
    return_if contains kIgnoredFunctions (getNameAsString FD) ;;
    let insertion_point :=
      if is_TK_NonTemplate FD then getBeginLoc FD else getInnerLocStart FD in
    FlagUnexported insertion_point (export_macro opts +:+ " ") in
  match dyn_cast_CXXMethodDecl FD with
  | Some MD =>
      return_if annotateClasses opts ;;
      if is_private MD then
        if hasAttr DLLExportAttr MD then FlagOverExportedPrivate else Skip
      else
      return_if isPure MD ;;
      after_method_checks
  | None => after_method_checks
  end.

Definition VisitClassTemplateSpecializationDecl
    (opts : Options) (CTSD : Decl) : Verdict :=
  let location := get_location CTSD in
  let filename := getFilename location in
  return_if in_lib_tools_or_def filename ;;
  return_if hasAttr DLLExportAttr CTSD ||
            hasAttr DLLImportAttr CTSD ||
            hasAttr VisibilityAttr CTSD ;;
  let offset := if specialized_template_isStruct CTSD then 7 else 6 in
  let insertion_point := getExternLoc CTSD in
  FlagUnexported insertion_point (export_macro opts +:+ " ").

Definition VisitVarDecl (opts : Options) (VD : Decl) : Verdict :=
  let location := get_location VD in
  let filename := getFilename location in
  return_if in_lib_tools_or_def filename ;;
  return_if hasAttr DLLExportAttr VD ||
            hasAttr DLLImportAttr VD ||
            hasAttr VisibilityAttr VD ;;
  return_if negb (hasExternalStorage VD) ;;
  let insertion_point := getBeginLoc VD in
  FlagUnexported insertion_point (export_macro opts +:+ " ").

Definition VisitCXXRecordDecl (opts : Options) (CD : Decl) : Verdict :=
  return_if negb (annotateClasses opts) ;;
  return_if String.eqb (getNameAsString CD) "LLVM_ABI" ;;
  let location := get_location CD in
  let filename := getFilename location in
  return_if in_lib_tools_or_def filename ;;
  return_if isInSystemHeader location ;;
  return_if negb (isCompleteDefinition CD) ;;
  return_if parent_isa_RecordDecl CD ;;
  return_if hasAttr DLLExportAttr CD ||
            hasAttr DLLImportAttr CD ||
            hasAttr VisibilityAttr CD ;;
  return_if isUnion CD ;;
  return_if isInvalid (getIncludeLoc CD) ;;
  return_if is_explicit_instantiation CD ;;
  let offset := if isStruct CD then 7 else 6 in
  let insertion_point := getLocWithOffset (getBeginLoc CD) offset in
  FlagUnexported insertion_point (export_macro opts +:+ " ").

(** The callback written for each kind of declaration. *)
Definition classify (opts : Options) (D : Decl) : Verdict :=
  match kind D with
  | Function | CXXMethod => VisitFunctionDecl opts D
  | CXXRecord => VisitCXXRecordDecl opts D
  | Var => VisitVarDecl opts D
  | ClassTemplateSpecialization =>
      VisitClassTemplateSpecializationDecl opts D
  end.

(** All the callbacks the traversal runs on one declaration, base class
    first: a class template specialization is a record as well, so the
    record callback sees it before its own callback does. *)
Definition callbacks (opts : Options) (D : Decl) : list Verdict :=
  match kind D with
  | ClassTemplateSpecialization =>
      [VisitCXXRecordDecl opts D; VisitClassTemplateSpecializationDecl opts D]
  | _ => [classify opts D]
  end.

End Idt.

(** ** [idt.cc], the revision with [-ignore] *)
Module IdtIgnore.

(** [llvm::cl::CommaSeparated]: the value of one occurrence of the flag is
    cut at every comma and each piece is added to the list. *)
Fixpoint CommaSeparated (Value : string) : list string :=
  match Value with
  | EmptyString => [EmptyString]
  | String c Val =>
      if Ascii.eqb c ","%char then EmptyString :: CommaSeparated Val
      else match CommaSeparated Val with
           | piece :: pieces => String c piece :: pieces
           | [] => [String c EmptyString]
           end
  end.

(** [llvm::cl::list<std::string> ignored_functions("ignore", ...)] after
    the command line was parsed: the pieces of every [-ignore] occurrence,
    in command-line order. *)
Definition parse_ignore (occurrences : list string) : list string :=
  flat_map CommaSeparated occurrences.

Record Options := {
  export_macro : string;
  apply_fixits : bool;
  inplace : bool;
  ignored_functions : list string;
}.

Definition contains (set : gset string) (key : string) : bool :=
  bool_decide (key ∈ set).

(** The function-local static set, initialised from the option's
    [begin()]..[end()] range on the first call. *)
Definition get_ignored_functions (opts : Options) : gset string :=
  list_to_set (ignored_functions opts).

Definition VisitFunctionDecl (opts : Options) (FD : Decl) : Verdict :=
  let location := get_location FD in
  return_if isInSystemHeader location ;;
  return_if isDependentContext FD ;;
  return_if hasBody FD ;;
  return_if isa_FriendDecl FD ;;
  return_if isDeleted FD || isDefaulted FD ;;
  let after_method_checks :=
    return_if hasAttr DLLExportAttr FD || hasAttr DLLImportAttr FD ;;
    return_if contains (get_ignored_functions opts) (getNameAsString FD) ;;
    let insertion_point :=
      if is_TK_NonTemplate FD then getBeginLoc FD else getInnerLocStart FD in
    FlagUnexported insertion_point (export_macro opts +:+ " ") in
  match dyn_cast_CXXMethodDecl FD with
  | Some MD =>
      if is_private MD then
        if hasAttr DLLExportAttr MD then FlagOverExportedPrivate else Skip
      else
      return_if isPure MD ;;
      after_method_checks
  | None => after_method_checks
  end.

End IdtIgnore.

(** ** The libtool revision that attaches fix-its *)
Module LibtoolFixit.

Record Options := {
  export_macro : string;
  apply_fixits : bool;
  inplace : bool;
}.

Definition kIgnoredFunctions : gset string :=
  {[ "_BitScanForward"; "_BitScanForward64"; "_BitScanReverse";
     "_BitScanReverse64"; "__builtin_strlen" ]}.

Definition VisitFunctionDecl (opts : Options) (FD : Decl) : Verdict :=
  let location := get_location FD in
  return_if isInSystemHeader location ;;
  return_if hasBody FD ;;
  return_if isa_CXXMethodDecl FD ;;
  return_if isa_FriendDecl FD ;;
  return_if hasAttr DLLExportAttr FD || hasAttr DLLImportAttr FD ;;
  return_if bool_decide (getNameAsString FD ∈ kIgnoredFunctions) ;;
  FlagUnexported (getBeginLoc FD) (export_macro opts +:+ " ").

Definition VisitCXXMethodDecl (opts : Options) (MD : Decl) : Verdict :=
  let location := get_location MD in
  return_if isInSystemHeader location ;;
  return_if isDependentContext MD ;;
  return_if hasBody MD ;;
  return_if isa_FriendDecl MD ;;
  return_if isDeleted MD || isDefaulted MD ;;
  if is_private MD then
    if hasAttr DLLExportAttr MD then FlagOverExportedPrivate else Skip
  else
  return_if hasAttr DLLExportAttr MD || hasAttr DLLImportAttr MD ;;
  FlagUnexported (getBeginLoc MD) (export_macro opts +:+ " ").

End LibtoolFixit.

(** ** [libtool.cc], which only prints *)
Module Libtool.

(** What is streamed into [llvm::outs()], one entry per [<<]. *)
Inductive Output :=
  | Literal (s : string)                (* a string literal of the source *)
  | Character (c : Ascii.ascii)
  | QualifiedName (ND : Decl)           (* ND->printQualifiedName(llvm::outs()) *)
  | Buffer (chars : string)             (* the SmallVector filled by path::native *)
  | Unsigned (n : N).

Section Printing.

(** [llvm::sys::path::native]: the file name with the separators of the
    host platform. *)
Variable native : string -> string.

Definition diagnose (ND : Decl) (location : FullSourceLoc) : list Output :=
  let filename := getFilename location in
  let buffer := native filename in
  [ QualifiedName ND; Literal " at "; Buffer buffer; Literal ":";
    Unsigned (getExpansionLineNumber location); Character "010"%char ].

Definition kIgnoredFunctions : gset string :=
  {[ "_BitScanForward"; "_BitScanForward64"; "_BitScanReverse";
     "_BitScanReverse64"; "__builtin_strlen" ]}.

Definition VisitFunctionDecl (FD : Decl) : list Output :=
  let location := get_location FD in
  if isInSystemHeader location then [] else
  if hasBody FD then [] else
  if isa_CXXMethodDecl FD then [] else
  if hasAttr DLLExportAttr FD || hasAttr DLLImportAttr FD then [] else
  if bool_decide (getNameAsString FD ∈ kIgnoredFunctions) then [] else
  diagnose FD location.

Definition VisitCXXMethodDecl (MD : Decl) : list Output :=
  let location := get_location MD in
  if isInSystemHeader location then [] else
  if isDependentContext MD then [] else
  if hasBody MD then [] else
  if isDeleted MD || isDefaulted MD then [] else
  if hasAttr DLLExportAttr MD || hasAttr DLLImportAttr MD then [] else
  (if is_private MD && hasAttr DLLExportAttr MD
   then Literal "WARNING: over-exporting " :: diagnose MD location
   else [])
  ++ diagnose MD location.

End Printing.

End Libtool.

(** ** Vocabulary of the statements *)

(** A method declared in a [private:] section. *)
Definition private_method (D : Decl) : bool :=
  isa_CXXMethodDecl D && is_private D.

(** Some export, import or visibility attribute is attached. *)
Definition annotated (D : Decl) : bool :=
  hasAttr DLLExportAttr D || hasAttr DLLImportAttr D || hasAttr VisibilityAttr D.

(** The declaration as the parser sees it again once the inserted macro
    expands to attribute [A]: the same declaration, now carrying [A]. *)
Definition annotate (A : Attr) (D : Decl) : Decl :=
  {| kind := kind D;
     getNameAsString := getNameAsString D;
     getQualifier := getQualifier D;
     get_location := get_location D;
     getBeginLoc := getBeginLoc D;
     has_DLLExportAttr :=
       match A with DLLExportAttr => true | _ => has_DLLExportAttr D end;
     has_DLLImportAttr :=
       match A with DLLImportAttr => true | _ => has_DLLImportAttr D end;
     has_VisibilityAttr :=
       match A with VisibilityAttr => true | _ => has_VisibilityAttr D end;
     isDependentContext := isDependentContext D;
     doesThisDeclarationHaveABody := doesThisDeclarationHaveABody D;
     hasBody := hasBody D;
     getFriendObjectKind := getFriendObjectKind D;
     isDeleted := isDeleted D;
     isDefaulted := isDefaulted D;
     getTemplatedKind := getTemplatedKind D;
     getInnerLocStart := getInnerLocStart D;
     getAccess := getAccess D;
     isPure := isPure D;
     isCompleteDefinition := isCompleteDefinition D;
     parent_isa_RecordDecl := parent_isa_RecordDecl D;
     getTagKind := getTagKind D;
     getIncludeLoc := getIncludeLoc D;
     getTemplateSpecializationKind := getTemplateSpecializationKind D;
     specialized_template_isStruct := specialized_template_isStruct D;
     getExternLoc := getExternLoc D;
     hasExternalStorage := hasExternalStorage D |}.

(** No guard in front of the private-member test of
    [Idt.VisitFunctionDecl] fires. *)
Definition reaches_private_check (opts : Idt.Options) (FD : Decl) : bool :=
  negb (Idt.in_lib_tools_or_def (getFilename (get_location FD))) &&
  negb (isInSystemHeader (get_location FD)) &&
  negb (isDependentContext FD) &&
  negb (doesThisDeclarationHaveABody FD) &&
  is_FOK_None FD &&
  negb (isDeleted FD) && negb (isDefaulted FD) &&
  negb (Idt.annotateClasses opts).

(** No guard in front of the private-member test of
    [LibtoolFixit.VisitCXXMethodDecl] fires. *)
Definition reaches_private_check_libtool (MD : Decl) : bool :=
  negb (isInSystemHeader (get_location MD)) &&
  negb (isDependentContext MD) &&
  negb (hasBody MD) &&
  negb (isDeleted MD) && negb (isDefaulted MD).

(** The spelling of the class-key, for the offsets of the record rule. *)
Definition class_key (T : TagKind) : string :=
  match T with
  | TTK_Struct => "struct"
  | TTK_Interface => "__interface"
  | TTK_Union => "union"
  | TTK_Class => "class"
  end.

(** ** Sample declarations *)

Definition members_only : Idt.Options :=
  {| Idt.export_macro := "EXPORT"; Idt.apply_fixits := false;
     Idt.inplace := false; Idt.annotateClasses := false |}.

Definition classes_only : Idt.Options :=
  {| Idt.export_macro := "EXPORT"; Idt.apply_fixits := false;
     Idt.inplace := false; Idt.annotateClasses := true |}.

(** The options of the [-ignore] revision after a command line whose
    [-ignore] occurrences carry the values [occurrences]. *)
Definition ignoring (occurrences : list string) : IdtIgnore.Options :=
  {| IdtIgnore.export_macro := "EXPORT"; IdtIgnore.apply_fixits := false;
     IdtIgnore.inplace := false;
     IdtIgnore.ignored_functions := IdtIgnore.parse_ignore occurrences |}.

Definition api_h (line : N) : FullSourceLoc :=
  {| getFilename := "/src/include/api.h"; isInSystemHeader := false;
     getExpansionLineNumber := line; getExpansionColumnNumber := 1 |}.

Definition unistd_h (line : N) : FullSourceLoc :=
  {| getFilename := "/usr/include/unistd.h"; isInSystemHeader := true;
     getExpansionLineNumber := line; getExpansionColumnNumber := 1 |}.

(** A free function [name] of [api.h] that starts at [begin], with or
    without a body. *)
Definition free_function (name : string) (begin : SourceLocation)
    (body : bool) : Decl :=
  {| kind := Function; getNameAsString := name; getQualifier := [];
     get_location := api_h 4; getBeginLoc := begin;
     has_DLLExportAttr := false; has_DLLImportAttr := false;
     has_VisibilityAttr := false;
     isDependentContext := false; doesThisDeclarationHaveABody := body;
     hasBody := body; getFriendObjectKind := FOK_None;
     isDeleted := false; isDefaulted := false;
     getTemplatedKind := TK_NonTemplate; getInnerLocStart := begin;
     getAccess := AS_none; isPure := false;
     isCompleteDefinition := false; parent_isa_RecordDecl := false;
     getTagKind := TTK_Struct; getIncludeLoc := 17;
     getTemplateSpecializationKind := TSK_Undeclared;
     specialized_template_isStruct := false; getExternLoc := 0;
     hasExternalStorage := false |}.

(** [void f() noexcept;] *)
Definition void_f : Decl := free_function "f" 100 false.

(** [inline int g() { return 0; }] *)
Definition inline_g : Decl := free_function "g" 130 true.

(** [unsigned char _BitScanForward(unsigned long *, unsigned long);] *)
Definition bit_scan_forward : Decl := free_function "_BitScanForward" 7 false.

(** [template <> void tpl<char>(char &);]: the header [template <> ]
    takes the first twelve characters. *)
Definition tpl_char : Decl :=
  {| kind := Function; getNameAsString := "tpl"; getQualifier := [];
     get_location := api_h 10; getBeginLoc := 200;
     has_DLLExportAttr := false; has_DLLImportAttr := false;
     has_VisibilityAttr := false;
     isDependentContext := false; doesThisDeclarationHaveABody := false;
     hasBody := false; getFriendObjectKind := FOK_None;
     isDeleted := false; isDefaulted := false;
     getTemplatedKind := TK_FunctionTemplateSpecialization;
     getInnerLocStart := 212;
     getAccess := AS_none; isPure := false;
     isCompleteDefinition := false; parent_isa_RecordDecl := false;
     getTagKind := TTK_Struct; getIncludeLoc := 17;
     getTemplateSpecializationKind := TSK_ExplicitSpecialization;
     specialized_template_isStruct := false; getExternLoc := 0;
     hasExternalStorage := false |}.

(** [class widget { void hidden(); };]: the private member [hidden],
    with the attributes given. *)
Definition hidden_method (dllexport dllimport : bool) : Decl :=
  {| kind := CXXMethod; getNameAsString := "hidden";
     getQualifier := ["widget"];
     get_location := api_h 21; getBeginLoc := 420;
     has_DLLExportAttr := dllexport; has_DLLImportAttr := dllimport;
     has_VisibilityAttr := false;
     isDependentContext := false; doesThisDeclarationHaveABody := false;
     hasBody := false; getFriendObjectKind := FOK_None;
     isDeleted := false; isDefaulted := false;
     getTemplatedKind := TK_NonTemplate; getInnerLocStart := 420;
     getAccess := AS_private; isPure := false;
     isCompleteDefinition := false; parent_isa_RecordDecl := false;
     getTagKind := TTK_Class; getIncludeLoc := 17;
     getTemplateSpecializationKind := TSK_Undeclared;
     specialized_template_isStruct := false; getExternLoc := 0;
     hasExternalStorage := false |}.

(** [extern char **environ;] as declared by the system header
    [unistd.h]. *)
Definition environ : Decl :=
  {| kind := Var; getNameAsString := "environ"; getQualifier := [];
     get_location := unistd_h 545; getBeginLoc := 9000;
     has_DLLExportAttr := false; has_DLLImportAttr := false;
     has_VisibilityAttr := false;
     isDependentContext := false; doesThisDeclarationHaveABody := false;
     hasBody := false; getFriendObjectKind := FOK_None;
     isDeleted := false; isDefaulted := false;
     getTemplatedKind := TK_NonTemplate; getInnerLocStart := 9000;
     getAccess := AS_none; isPure := false;
     isCompleteDefinition := false; parent_isa_RecordDecl := false;
     getTagKind := TTK_Struct; getIncludeLoc := 33;
     getTemplateSpecializationKind := TSK_Undeclared;
     specialized_template_isStruct := false; getExternLoc := 0;
     hasExternalStorage := true |}.

(** [struct point { int x; int y; };] at the top level of [api.h]: a
    record with its body. *)
Definition struct_point : Decl :=
  {| kind := CXXRecord; getNameAsString := "point"; getQualifier := [];
     get_location := api_h 30; getBeginLoc := 600;
     has_DLLExportAttr := false; has_DLLImportAttr := false;
     has_VisibilityAttr := false;
     isDependentContext := false; doesThisDeclarationHaveABody := true;
     hasBody := true; getFriendObjectKind := FOK_None;
     isDeleted := false; isDefaulted := false;
     getTemplatedKind := TK_NonTemplate; getInnerLocStart := 600;
     getAccess := AS_none; isPure := false;
     isCompleteDefinition := true; parent_isa_RecordDecl := false;
     getTagKind := TTK_Struct; getIncludeLoc := 17;
     getTemplateSpecializationKind := TSK_Undeclared;
     specialized_template_isStruct := false; getExternLoc := 0;
     hasExternalStorage := false |}.

(** [extern template class std::basic_string<char>;] as declared by a
    system header. *)
Definition basic_string_char : Decl :=
  {| kind := ClassTemplateSpecialization;
     getNameAsString := "basic_string"; getQualifier := ["std"];
     get_location := unistd_h 12; getBeginLoc := 9500;
     has_DLLExportAttr := false; has_DLLImportAttr := false;
     has_VisibilityAttr := false;
     isDependentContext := false; doesThisDeclarationHaveABody := false;
     hasBody := false; getFriendObjectKind := FOK_None;
     isDeleted := false; isDefaulted := false;
     getTemplatedKind := TK_NonTemplate; getInnerLocStart := 9500;
     getAccess := AS_none; isPure := false;
     isCompleteDefinition := false; parent_isa_RecordDecl := false;
     getTagKind := TTK_Class; getIncludeLoc := 33;
     getTemplateSpecializationKind := TSK_ExplicitInstantiationDeclaration;
     specialized_template_isStruct := false; getExternLoc := 9500;
     hasExternalStorage := false |}.

(** [D] declared through a friend declaration of kind [K], everything
    else unchanged. *)
Definition befriend (K : FriendObjectKind) (D : Decl) : Decl :=
  {| kind := kind D;
     getNameAsString := getNameAsString D;
     getQualifier := getQualifier D;
     get_location := get_location D;
     getBeginLoc := getBeginLoc D;
     has_DLLExportAttr := has_DLLExportAttr D;
     has_DLLImportAttr := has_DLLImportAttr D;
     has_VisibilityAttr := has_VisibilityAttr D;
     isDependentContext := isDependentContext D;
     doesThisDeclarationHaveABody := doesThisDeclarationHaveABody D;
     hasBody := hasBody D;
     getFriendObjectKind := K;
     isDeleted := isDeleted D;
     isDefaulted := isDefaulted D;
     getTemplatedKind := getTemplatedKind D;
     getInnerLocStart := getInnerLocStart D;
     getAccess := getAccess D;
     isPure := isPure D;
     isCompleteDefinition := isCompleteDefinition D;
     parent_isa_RecordDecl := parent_isa_RecordDecl D;
     getTagKind := getTagKind D;
     getIncludeLoc := getIncludeLoc D;
     getTemplateSpecializationKind := getTemplateSpecializationKind D;
     specialized_template_isStruct := specialized_template_isStruct D;
     getExternLoc := getExternLoc D;
     hasExternalStorage := hasExternalStorage D |}.

(** [class Table { ... };] of the header [Intrinsics.def.h]. *)
Definition class_table : Decl :=
  {| kind := CXXRecord; getNameAsString := "Table"; getQualifier := [];
     get_location :=
       {| getFilename := "/src/include/Intrinsics.def.h";
          isInSystemHeader := false;
          getExpansionLineNumber := 3; getExpansionColumnNumber := 1 |};
     getBeginLoc := 40;
     has_DLLExportAttr := false; has_DLLImportAttr := false;
     has_VisibilityAttr := false;
     isDependentContext := false; doesThisDeclarationHaveABody := false;
     hasBody := false; getFriendObjectKind := FOK_None;
     isDeleted := false; isDefaulted := false;
     getTemplatedKind := TK_NonTemplate; getInnerLocStart := 40;
     getAccess := AS_none; isPure := false;
     isCompleteDefinition := true; parent_isa_RecordDecl := false;
     getTagKind := TTK_Class; getIncludeLoc := 17;
     getTemplateSpecializationKind := TSK_Undeclared;
     specialized_template_isStruct := false; getExternLoc := 0;
     hasExternalStorage := false |}.

(** [template <> class vec<bool> { ... };] of [api.h]: an explicit
    specialization, written without [extern]. *)
Definition vec_bool : Decl :=
  {| kind := ClassTemplateSpecialization;
     getNameAsString := "vec"; getQualifier := [];
     get_location := api_h 40; getBeginLoc := 800;
     has_DLLExportAttr := false; has_DLLImportAttr := false;
     has_VisibilityAttr := false;
     isDependentContext := false; doesThisDeclarationHaveABody := false;
     hasBody := false; getFriendObjectKind := FOK_None;
     isDeleted := false; isDefaulted := false;
     getTemplatedKind := TK_NonTemplate; getInnerLocStart := 800;
     getAccess := AS_none; isPure := false;
     isCompleteDefinition := true; parent_isa_RecordDecl := false;
     getTagKind := TTK_Class; getIncludeLoc := 17;
     getTemplateSpecializationKind := TSK_ExplicitSpecialization;
     specialized_template_isStruct := false; getExternLoc := 0;
     hasExternalStorage := false |}.

(** [class widget { public: void show(); };]: the public member [show],
    whose definition follows later in the same translation unit or not. *)
Definition show_method (defined_later : bool) : Decl :=
  {| kind := CXXMethod; getNameAsString := "show";
     getQualifier := ["widget"];
     get_location := api_h 23; getBeginLoc := 460;
     has_DLLExportAttr := false; has_DLLImportAttr := false;
     has_VisibilityAttr := false;
     isDependentContext := false; doesThisDeclarationHaveABody := false;
     hasBody := defined_later; getFriendObjectKind := FOK_None;
     isDeleted := false; isDefaulted := false;
     getTemplatedKind := TK_NonTemplate; getInnerLocStart := 460;
     getAccess := AS_public; isPure := false;
     isCompleteDefinition := false; parent_isa_RecordDecl := false;
     getTagKind := TTK_Class; getIncludeLoc := 17;
     getTemplateSpecializationKind := TSK_Undeclared;
     specialized_template_isStruct := false; getExternLoc := 0;
     hasExternalStorage := false |}.

Definition libtool_options : LibtoolFixit.Options :=
  {| LibtoolFixit.export_macro := "EXPORT";
     LibtoolFixit.apply_fixits := false; LibtoolFixit.inplace := false |}.

(** * Properties of the callbacks *)

(** Open the guard lists of the [-annotate-classes] revision. *)
Ltac open_idt :=
  unfold Idt.classify, Idt.VisitFunctionDecl, Idt.VisitCXXRecordDecl,
    Idt.VisitVarDecl, Idt.VisitClassTemplateSpecializationDecl,
    dyn_cast_CXXMethodDecl, isa_FriendDecl in *.

(** Walk a guard list: split on the guard in head position until the
    verdict is reached. *)
Ltac walk_guards :=
  repeat match goal with
         | |- context [if ?c then _ else _] => destruct c eqn:?
         | |- context [match ?k with Function => _ | _ => _ end] =>
             destruct k eqn:?
         end; simpl in *; try congruence.

(** ** Private methods *)

(** C1, as it holds.  In [idt.cc]: a private method without dllexport
    and visibility attribute is skipped; a private method that carries
    the dllexport attribute is reported as an exported private interface
    provided no earlier guard fires and classes are not annotated as a
    whole; with [-annotate-classes] on, and whenever an earlier guard
    fires, the private method is skipped; no later guard (pure virtual,
    already annotated, ignore list) changes these verdicts, and a private
    method is never reported as unexported.  The method callback of the
    libtool revision with fix-its, which has no [-annotate-classes]
    option, gives the same verdicts behind its own earlier guards. *)
Theorem private_method_verdict
    (opts : Idt.Options) (optsL : LibtoolFixit.Options) (MD : Decl) :
  kind MD = CXXMethod -> getAccess MD = AS_private ->
  (hasAttr DLLExportAttr MD = false -> hasAttr VisibilityAttr MD = false ->
     Idt.classify opts MD = Skip)
  /\ (reaches_private_check opts MD = true ->
      hasAttr DLLExportAttr MD = true ->
      Idt.classify opts MD = FlagOverExportedPrivate)
  /\ (Idt.annotateClasses opts = true -> Idt.classify opts MD = Skip)
  /\ (reaches_private_check opts MD = false -> Idt.classify opts MD = Skip)
  /\ (forall ip text, Idt.classify opts MD <> FlagUnexported ip text)
  /\ (hasAttr DLLExportAttr MD = false -> hasAttr VisibilityAttr MD = false ->
      LibtoolFixit.VisitCXXMethodDecl optsL MD = Skip)
  /\ (reaches_private_check_libtool MD = true ->
      hasAttr DLLExportAttr MD = true ->
      LibtoolFixit.VisitCXXMethodDecl optsL MD = FlagOverExportedPrivate)
  /\ (reaches_private_check_libtool MD = false ->
      LibtoolFixit.VisitCXXMethodDecl optsL MD = Skip)
  /\ (forall ip text,
        LibtoolFixit.VisitCXXMethodDecl optsL MD <> FlagUnexported ip text).
Proof.
  intros Hkind Hacc.
  unfold reaches_private_check, reaches_private_check_libtool,
    LibtoolFixit.VisitCXXMethodDecl.
  open_idt. unfold is_private, is_FOK_None. rewrite Hkind, Hacc.
  repeat apply conj.
  - intros He _. rewrite He. walk_guards.
  - intros Hreach He. rewrite He.
    repeat (apply andb_prop in Hreach; destruct Hreach as [Hreach ?]).
    repeat match goal with
           | H : negb _ = true |- _ => apply negb_true_iff in H; rewrite H
           end.
    destruct (getFriendObjectKind MD); try discriminate. reflexivity.
  - intros Ha. rewrite Ha. walk_guards.
  - destruct (getFriendObjectKind MD), (isDeleted MD), (isDefaulted MD);
      walk_guards.
  - intros ip text. walk_guards.
  - intros He _. rewrite He. walk_guards.
  - intros Hreach He. rewrite He.
    repeat (apply andb_prop in Hreach; destruct Hreach as [Hreach ?]).
    repeat match goal with
           | H : negb _ = true |- _ => apply negb_true_iff in H; rewrite H
           end.
    reflexivity.
  - destruct (isDeleted MD), (isDefaulted MD); walk_guards.
  - intros ip text. walk_guards.
Qed.

Lemma private_method_verdict_witness :
  Idt.classify members_only (hidden_method false true) = Skip
  /\ Idt.classify members_only (hidden_method true false)
     = FlagOverExportedPrivate
  /\ Idt.classify classes_only (hidden_method true false) = Skip
  /\ LibtoolFixit.VisitCXXMethodDecl libtool_options (hidden_method false true)
     = Skip
  /\ LibtoolFixit.VisitCXXMethodDecl libtool_options (hidden_method true false)
     = FlagOverExportedPrivate.
Proof.
  pose proof (private_method_verdict members_only libtool_options
                (hidden_method false true) eq_refl eq_refl)
    as (H1 & _ & _ & _ & _ & H6 & _).
  pose proof (private_method_verdict members_only libtool_options
                (hidden_method true false) eq_refl eq_refl)
    as (_ & H2 & _ & _ & _ & _ & H7 & _).
  pose proof (private_method_verdict classes_only libtool_options
                (hidden_method true false) eq_refl eq_refl)
    as (_ & _ & H3 & _).
  repeat apply conj.
  - apply H1; reflexivity.
  - apply H2; reflexivity.
  - apply H3; reflexivity.
  - apply H6; reflexivity.
  - apply H7; reflexivity.
Defined.

(** C1, as stated, fails twice: with [-annotate-classes] on, the
    exported private method is dropped by the guard in front of the
    private-member test; and with it off, a private method that carries
    the import attribute is skipped, not reported. *)
Lemma private_export_not_always_reported :
  ~ (forall opts MD, private_method MD = true -> annotated MD = true ->
       Idt.classify opts MD = FlagOverExportedPrivate)
  /\ ~ (forall MD, private_method MD = true -> annotated MD = true ->
         Idt.classify members_only MD = FlagOverExportedPrivate).
Proof.
  split; intros H.
  - specialize (H classes_only (hidden_method true false) eq_refl eq_refl).
    vm_compute in H. discriminate H.
  - specialize (H (hidden_method false true) eq_refl eq_refl).
    vm_compute in H. discriminate H.
Qed.

(** ** System headers *)

(** Functions, methods and records of a system header are skipped. *)
Lemma system_header_skipped (opts : Idt.Options) (D : Decl) :
  isInSystemHeader (get_location D) = true ->
  kind D = Function \/ kind D = CXXMethod \/ kind D = CXXRecord ->
  Idt.classify opts D = Skip.
Proof.
  intros Hsys [Hk | [Hk | Hk]]; open_idt; rewrite Hk, Hsys; walk_guards.
Qed.

(** C2 at its failing inputs: [VisitVarDecl] and
    [VisitClassTemplateSpecializationDecl] never ask whether the
    declaration comes from a system header, so the extern variable and
    the explicit instantiation declared by system headers are reported
    as unexported, with a fix-it that edits the system header. *)
Theorem system_header_variable_flagged (opts : Idt.Options) :
  isInSystemHeader (get_location environ) = true
  /\ Idt.classify opts environ
     = FlagUnexported 9000 (Idt.export_macro opts +:+ " ")
  /\ isInSystemHeader (get_location basic_string_char) = true
  /\ Idt.classify opts basic_string_char
     = FlagUnexported 9500 (Idt.export_macro opts +:+ " ").
Proof. repeat split. Qed.

(** ** Declarations with a body *)

(** C3, as it holds: a function or method declaration that has a body
    is skipped, whatever its other attributes and the options. *)
Theorem function_with_body_skipped (opts : Idt.Options) (FD : Decl) :
  kind FD = Function \/ kind FD = CXXMethod ->
  doesThisDeclarationHaveABody FD = true ->
  Idt.classify opts FD = Skip.
Proof.
  intros [Hk | Hk] Hbody; open_idt; rewrite Hk, Hbody; walk_guards.
Qed.

Lemma function_with_body_skipped_witness :
  Idt.classify members_only inline_g = Skip.
Proof.
  apply (function_with_body_skipped members_only inline_g);
    [left; reflexivity | reflexivity].
Defined.

(** C3, as stated, fails on records: a record is reported only when it
    is a complete definition, that is when it has its body.  The struct
    below answers yes to every body question and is flagged. *)
Lemma record_with_body_flagged :
  ~ (forall opts D,
       doesThisDeclarationHaveABody D = true -> hasBody D = true ->
       isCompleteDefinition D = true ->
       Idt.classify opts D = Skip).
Proof.
  intros H.
  specialize (H classes_only struct_point eq_refl eq_refl eq_refl).
  vm_compute in H. discriminate H.
Qed.

(** ** Declarations that already carry an attribute *)

Lemma annotated_annotate (A : Attr) (D : Decl) : annotated (annotate A D) = true.
Proof.
  unfold annotated; destruct A; simpl;
    rewrite ?orb_true_r, ?orb_true_l; reflexivity.
Qed.

Lemma private_method_annotate (A : Attr) (D : Decl) :
  private_method (annotate A D) = private_method D.
Proof. reflexivity. Qed.

(** A declaration reported as unexported is not a private method. *)
Lemma flagged_not_private (opts : Idt.Options) (D : Decl) ip text :
  Idt.classify opts D = FlagUnexported ip text -> private_method D = false.
Proof.
  unfold private_method, isa_CXXMethodDecl. open_idt.
  destruct (kind D) eqn:Hk; try reflexivity.
  destruct (is_private D) eqn:Hp; try reflexivity.
  walk_guards.
Qed.

Lemma annotated_skipped (opts : Idt.Options) (D : Decl) :
  annotated D = true -> private_method D = false ->
  Idt.classify opts D = Skip.
Proof.
  unfold annotated, private_method, isa_CXXMethodDecl.
  intros Ha Hp. open_idt. rewrite Ha.
  destruct (kind D); simpl in Hp; rewrite ?Hp; walk_guards.
Qed.

(** The record callback that also runs on a class template
    specialization skips the annotated declaration, too. *)
Lemma annotated_skipped_all_callbacks (opts : Idt.Options) (D : Decl) :
  annotated D = true -> private_method D = false ->
  Forall (fun v => v = Skip) (Idt.callbacks opts D).
Proof.
  intros Ha Hp. pose proof (annotated_skipped opts D Ha Hp) as Hs.
  unfold Idt.callbacks. revert Hs. unfold Idt.classify.
  destruct (kind D); intros Hs; repeat constructor; try exact Hs.
  unfold annotated in Ha. unfold Idt.VisitCXXRecordDecl. rewrite Ha.
  walk_guards.
Qed.

(** The part of C4 that holds, on the [-annotate-classes] revision.  A
    declaration that carries an export, import or visibility
    attribute and is not a private method is skipped, whatever its kind;
    hence a declaration that was reported as unexported is skipped once
    the inserted macro has given it any of the three attributes. *)
Theorem annotated_declaration_skipped :
  (forall opts D,
     annotated D = true -> private_method D = false ->
     Idt.classify opts D = Skip)
  /\ (forall opts D A ip text,
        Idt.classify opts D = FlagUnexported ip text ->
        Idt.classify opts (annotate A D) = Skip).
Proof.
  split.
  - apply annotated_skipped.
  - intros opts D A ip text Hflag.
    apply annotated_skipped.
    + apply annotated_annotate.
    + rewrite private_method_annotate. eapply flagged_not_private, Hflag.
Qed.

Lemma annotated_declaration_skipped_witness :
  Idt.classify classes_only (annotate VisibilityAttr struct_point) = Skip
  /\ Idt.classify members_only (annotate DLLImportAttr void_f) = Skip.
Proof.
  split.
  - apply (proj1 annotated_declaration_skipped classes_only
             (annotate VisibilityAttr struct_point)); reflexivity.
  - apply (proj2 annotated_declaration_skipped members_only void_f
             DLLImportAttr 100 "EXPORT "). reflexivity.
Defined.

(** C4 at its failing input.  The [-ignore] revision tests the export
    and import attributes only (its comment says the visibility attribute
    should be handled as well): [void f() noexcept;] is reported as
    unexported, and once the inserted macro has given it a visibility
    attribute, so that it is annotated and no private method, it is
    reported again with the same fix-it instead of being skipped. *)
Theorem visibility_not_seen_by_ignore_revision (opts : IdtIgnore.Options) :
  (getNameAsString void_f ∉ IdtIgnore.get_ignored_functions opts) ->
  annotated (annotate VisibilityAttr void_f) = true
  /\ private_method (annotate VisibilityAttr void_f) = false
  /\ IdtIgnore.VisitFunctionDecl opts void_f
     = FlagUnexported 100 (IdtIgnore.export_macro opts +:+ " ")
  /\ IdtIgnore.VisitFunctionDecl opts (annotate VisibilityAttr void_f)
     = FlagUnexported 100 (IdtIgnore.export_macro opts +:+ " ").
Proof.
  intros Hnot.
  unfold IdtIgnore.VisitFunctionDecl, IdtIgnore.contains. simpl.
  rewrite (bool_decide_eq_false_2 _ Hnot). repeat split.
Qed.

Lemma visibility_not_seen_by_ignore_revision_witness :
  IdtIgnore.VisitFunctionDecl (ignoring ["g"]) (annotate VisibilityAttr void_f)
  = FlagUnexported 100 "EXPORT ".
Proof.
  apply (visibility_not_seen_by_ignore_revision (ignoring ["g"])).
  intros H. vm_compute in H. discriminate H.
Defined.

(** ** The ignore list *)

(** C5.  A free function whose bare name is in the ignore list is
    skipped: by the revision with the built-in list and by the revision
    whose list comes from [-ignore]. *)
Theorem ignored_function_skipped :
  (forall opts FD,
     kind FD = Function ->
     getNameAsString FD ∈ Idt.kIgnoredFunctions ->
     Idt.classify opts FD = Skip)
  /\ (forall opts FD,
        kind FD = Function ->
        getNameAsString FD ∈ IdtIgnore.get_ignored_functions opts ->
        IdtIgnore.VisitFunctionDecl opts FD = Skip).
Proof.
  split; intros opts FD Hk Hin.
  - open_idt. unfold Idt.contains. rewrite Hk.
    rewrite (bool_decide_eq_true_2 _ Hin). walk_guards.
  - unfold IdtIgnore.VisitFunctionDecl, IdtIgnore.contains,
      dyn_cast_CXXMethodDecl, isa_FriendDecl.
    rewrite Hk, (bool_decide_eq_true_2 _ Hin). walk_guards.
Qed.

Lemma ignored_function_skipped_witness :
  Idt.classify members_only bit_scan_forward = Skip
  /\ IdtIgnore.VisitFunctionDecl (ignoring ["f,g"]) void_f = Skip.
Proof.
  split.
  - apply (proj1 ignored_function_skipped members_only bit_scan_forward).
    + reflexivity.
    + vm_compute. reflexivity.
  - apply (proj2 ignored_function_skipped (ignoring ["f,g"]) void_f).
    + reflexivity.
    + vm_compute. reflexivity.
Defined.

(** A declaration of [api.h] on which no other guard fires is skipped
    exactly when its name is in the built-in list. *)
Lemma ignore_list_decides (opts : Idt.Options) (name : string) (begin : Z) :
  Idt.classify opts (free_function name begin false) = Skip
  <-> name ∈ Idt.kIgnoredFunctions.
Proof.
  unfold Idt.classify, Idt.VisitFunctionDecl, Idt.contains; simpl.
  destruct (bool_decide (name ∈ Idt.kIgnoredFunctions)) eqn:Hd.
  - apply bool_decide_eq_true_1 in Hd. tauto.
  - apply bool_decide_eq_false_1 in Hd. split; [discriminate | tauto].
Qed.

(** ** Where the macro is inserted *)

(** The part of C6 that holds, on [idt.cc].  When a function or method
    is reported as unexported, the
    fix-it inserts at the begin location of a non-template and at the
    inner start location (past the template header) of every template,
    member specialization and function template specialization. *)
Theorem function_insertion_point (opts : Idt.Options) (FD : Decl) ip text :
  kind FD = Function \/ kind FD = CXXMethod ->
  Idt.classify opts FD = FlagUnexported ip text ->
  (getTemplatedKind FD = TK_NonTemplate -> ip = getBeginLoc FD)
  /\ (getTemplatedKind FD <> TK_NonTemplate -> ip = getInnerLocStart FD).
Proof.
  intros Hk Hflag.
  assert (Hip : ip = if is_TK_NonTemplate FD
                     then getBeginLoc FD else getInnerLocStart FD).
  { revert Hflag. open_idt.
    destruct Hk as [Hk | Hk]; rewrite Hk;
      repeat match goal with
             | |- context [if ?c then _ else _] =>
                 lazymatch c with
                 | is_TK_NonTemplate _ => fail
                 | _ => destruct c eqn:?
                 end
             end; intros Hflag; try discriminate Hflag;
      injection Hflag as <- _; reflexivity. }
  rewrite Hip. unfold is_TK_NonTemplate.
  split; intros Htk; destruct (getTemplatedKind FD); congruence.
Qed.

Lemma function_insertion_point_witness :
  100 = getBeginLoc void_f /\ 212 = getInnerLocStart tpl_char.
Proof.
  split.
  - apply (proj1 (function_insertion_point classes_only void_f 100
                    "EXPORT " (or_introl eq_refl) eq_refl)).
    reflexivity.
  - apply (proj2 (function_insertion_point classes_only tpl_char 212
                    "EXPORT " (or_introl eq_refl) eq_refl)).
    discriminate.
Defined.

(** C6 at its failing input.  The function callback of the libtool
    revision with fix-its inserts at the begin location whatever the
    templated kind: for [template <> void tpl<char>(char &);] the macro
    is put at 200, in front of [template <>], not at the inner start 212
    behind the template header. *)
Theorem libtool_template_fixit_at_begin (opts : LibtoolFixit.Options) :
  getTemplatedKind tpl_char = TK_FunctionTemplateSpecialization
  /\ getBeginLoc tpl_char = 200
  /\ getInnerLocStart tpl_char = 212
  /\ LibtoolFixit.VisitFunctionDecl opts tpl_char
     = FlagUnexported 200 (LibtoolFixit.export_macro opts +:+ " ").
Proof. repeat split. Qed.

(** C7.  When a record is reported as unexported, the fix-it inserts at
    the begin location plus 7 for a struct and plus 6 for a class or a
    union, which is the length of the class-key plus one. *)
Theorem record_insertion_point (opts : Idt.Options) (CD : Decl) ip text :
  kind CD = CXXRecord ->
  Idt.classify opts CD = FlagUnexported ip text ->
  (getTagKind CD = TTK_Struct ->
     ip = getLocWithOffset (getBeginLoc CD) 7)
  /\ (getTagKind CD = TTK_Class \/ getTagKind CD = TTK_Union ->
       ip = getLocWithOffset (getBeginLoc CD) 6)
  /\ (getTagKind CD <> TTK_Interface ->
       ip = getLocWithOffset (getBeginLoc CD)
              (Z.of_nat (String.length (class_key (getTagKind CD))) + 1)).
Proof.
  intros Hk Hflag. revert Hflag. open_idt. rewrite Hk.
  unfold isStruct, isUnion.
  repeat match goal with
         | |- context [if ?c then _ else _] =>
             lazymatch c with
             | context [getTagKind] => fail
             | _ => destruct c eqn:?
             end
         end; try discriminate;
    destruct (getTagKind CD); simpl; intros Hflag; try discriminate Hflag;
    injection Hflag as <- _;
    repeat split; intros; try reflexivity; intuition congruence.
Qed.

Lemma record_insertion_point_witness :
  607 = getLocWithOffset (getBeginLoc struct_point) 7.
Proof.
  apply (proj1 (record_insertion_point classes_only struct_point 607
                  "EXPORT " eq_refl eq_refl)).
  reflexivity.
Defined.

(** Below the 32-bit limit the offset location is the plain sum. *)
Lemma getLocWithOffset_no_wrap (L : SourceLocation) (Offset : Z) :
  0 <= L -> 0 <= Offset -> L + Offset < 2 ^ 32 ->
  getLocWithOffset L Offset = L + Offset.
Proof.
  intros HL HO Hlt. unfold getLocWithOffset. apply Z.mod_small. lia.
Qed.

(** A union is never reported, so the offset of a union is never used. *)
Lemma union_never_flagged (opts : Idt.Options) (CD : Decl) ip text :
  kind CD = CXXRecord -> getTagKind CD = TTK_Union ->
  Idt.classify opts CD <> FlagUnexported ip text.
Proof.
  intros Hk Ht. open_idt. unfold isUnion. rewrite Hk, Ht. walk_guards.
Qed.

(** ** What is inserted *)

(** C8.  Whatever the kind of the declaration, the text of the fix-it
    of an unexported-interface remark is the export macro followed by
    one space. *)
Theorem inserted_text (opts : Idt.Options) (D : Decl) ip text :
  Idt.classify opts D = FlagUnexported ip text ->
  text = Idt.export_macro opts +:+ " ".
Proof.
  open_idt. unfold isStruct.
  destruct (kind D); walk_guards.
Qed.

(** The same holds of each callback on its own, on any declaration it
    is handed. *)
Lemma inserted_text_each_callback (opts : Idt.Options) (D : Decl) ip text :
  Idt.VisitFunctionDecl opts D = FlagUnexported ip text
  \/ Idt.VisitCXXRecordDecl opts D = FlagUnexported ip text
  \/ Idt.VisitVarDecl opts D = FlagUnexported ip text
  \/ Idt.VisitClassTemplateSpecializationDecl opts D = FlagUnexported ip text ->
  text = Idt.export_macro opts +:+ " ".
Proof.
  open_idt. unfold isStruct.
  intros [H | [H | [H | H]]]; revert H; walk_guards.
Qed.

(** Hence it holds of every remark the traversal emits for one
    declaration. *)
Lemma inserted_text_all_callbacks (opts : Idt.Options) (D : Decl) ip text :
  In (FlagUnexported ip text) (Idt.callbacks opts D) ->
  text = Idt.export_macro opts +:+ " ".
Proof.
  intros Hin. apply (inserted_text_each_callback opts D ip text).
  revert Hin. unfold Idt.callbacks, Idt.classify.
  destruct (kind D); simpl; tauto.
Qed.

Lemma inserted_text_witness :
  "EXPORT " = Idt.export_macro members_only +:+ " ".
Proof.
  apply (inserted_text members_only environ 9000 "EXPORT "). reflexivity.
Defined.

(** ** How the ignore list is built *)

(** The set contains exactly the pieces of the [-ignore] occurrences. *)
Lemma get_ignored_functions_elem (opts : IdtIgnore.Options) (name : string) :
  name ∈ IdtIgnore.get_ignored_functions opts
  <-> name ∈ IdtIgnore.ignored_functions opts.
Proof. unfold IdtIgnore.get_ignored_functions. apply elem_of_list_to_set. Qed.

(** One comma-separated occurrence and repeated occurrences give the same
    list, and repeated names collapse in the set. *)
Lemma comma_separated_or_repeated :
  IdtIgnore.parse_ignore ["f,g"] = IdtIgnore.parse_ignore ["f"; "g"]
  /\ IdtIgnore.get_ignored_functions (ignoring ["f,g"; "g"; "f,f"])
     = IdtIgnore.get_ignored_functions (ignoring ["f"; "g"]).
Proof.
  split; [reflexivity |].
  apply set_eq. intros x. rewrite !get_ignored_functions_elem. simpl.
  rewrite !elem_of_cons, !elem_of_nil. tauto.
Qed.

(** The revision with the built-in list has no option to extend it: [f]
    is reported under every setting of its options. *)
Lemma builtin_list_not_extensible (opts : Idt.Options) :
  Idt.classify opts void_f
  = FlagUnexported 100 (Idt.export_macro opts +:+ " ").
Proof. reflexivity. Qed.

(** C9 at its failing input.  The set of the [-ignore] revision is
    built from the command line alone: without an [-ignore] flag the
    compiler builtin [_BitScanForward], a member of the fixed list of the
    other revisions, is not in the set and its declaration is reported as
    unexported. *)
Theorem builtin_flagged_without_ignore_flag :
  ("_BitScanForward" ∈ Idt.kIgnoredFunctions)
  /\ ("_BitScanForward" ∉ IdtIgnore.get_ignored_functions (ignoring []))
  /\ IdtIgnore.VisitFunctionDecl (ignoring []) bit_scan_forward
     = FlagUnexported 7 "EXPORT ".
Proof.
  split; [vm_compute; reflexivity |].
  split; [| reflexivity].
  rewrite get_ignored_functions_elem. simpl. apply not_elem_of_nil.
Qed.

(** ** The report-only tool *)

(** After its guards, [VisitCXXMethodDecl] prints the one diagnose line
    and nothing else. *)
Lemma report_only_method_output (native : string -> string) (MD : Decl) :
  Libtool.VisitCXXMethodDecl native MD = []
  \/ Libtool.VisitCXXMethodDecl native MD
     = Libtool.diagnose native MD (get_location MD).
Proof.
  unfold Libtool.VisitCXXMethodDecl.
  destruct (isInSystemHeader (get_location MD)); [left; reflexivity |].
  destruct (isDependentContext MD); [left; reflexivity |].
  destruct (hasBody MD); [left; reflexivity |].
  destruct (isDeleted MD || isDefaulted MD); [left; reflexivity |].
  destruct (hasAttr DLLExportAttr MD) eqn:He; [left; reflexivity |].
  destruct (hasAttr DLLImportAttr MD) eqn:Hi; [left; reflexivity |].
  right. rewrite andb_false_r. reflexivity.
Qed.

(** C10.  The report-only tool never prints the over-exporting warning:
    a method with the dllexport attribute has already returned at the
    guard for annotated methods when the private-member test is reached. *)
Theorem over_exporting_warning_unreachable
    (native : string -> string) (MD : Decl) :
  ~ In (Libtool.Literal "WARNING: over-exporting ")
       (Libtool.VisitCXXMethodDecl native MD).
Proof.
  destruct (report_only_method_output native MD) as [-> | ->].
  - simpl. tauto.
  - unfold Libtool.diagnose. simpl.
    intros [H | [H | [H | [H | [H | [H | []]]]]]]; discriminate H.
Qed.

(** ** The older revisions *)

(** The [-ignore] revision tests the export and import attributes only:
    a function that carries nothing but a visibility attribute is still
    reported. *)
Lemma ignore_revision_overlooks_visibility :
  IdtIgnore.VisitFunctionDecl (ignoring []) (annotate VisibilityAttr void_f)
  = FlagUnexported 100 "EXPORT ".
Proof. reflexivity. Qed.

(** The libtool revision with fix-its inserts at the begin location of
    every function it reports, templates included. *)
Lemma libtool_inserts_at_begin (opts : LibtoolFixit.Options) (FD : Decl) ip text :
  LibtoolFixit.VisitFunctionDecl opts FD = FlagUnexported ip text ->
  ip = getBeginLoc FD.
Proof.
  unfold LibtoolFixit.VisitFunctionDecl, isa_FriendDecl. walk_guards.
Qed.

(** Its method callback has the private-member test in front of the
    guard for annotated methods, as [Idt.VisitFunctionDecl] has. *)
Lemma libtool_private_method (opts : LibtoolFixit.Options) (MD : Decl) :
  is_private MD = true ->
  LibtoolFixit.VisitCXXMethodDecl opts MD = FlagOverExportedPrivate
  \/ LibtoolFixit.VisitCXXMethodDecl opts MD = Skip.
Proof.
  intros Hp. unfold LibtoolFixit.VisitCXXMethodDecl, isa_FriendDecl.
  rewrite Hp. walk_guards; tauto.
Qed.

(** * Further properties *)

(** Walk the guard list in a hypothesis [H : callback = verdict]: split
    on the guard in head position and drop the branch that returns
    another verdict. *)
Ltac peel_guards H :=
  repeat (match type of H with
          | (if ?c then _ else _) = _ => destruct c eqn:?
          | (match ?k with Function => _ | _ => _ end) = _ =>
              destruct k eqn:?
          | (match ?k with Some _ => _ | None => _ end) = _ =>
              destruct k eqn:?
          end; try discriminate H).

(** ** The file-name test *)

Lemma substring_app_middle (pre t post : string) :
  substring (String.length pre) (String.length t) (pre +:+ t +:+ post) = t.
Proof.
  induction pre as [| c pre IH]; simpl.
  - induction t as [| d t IHt]; simpl.
    + destruct post; reflexivity.
    + f_equal. exact IHt.
  - exact IH.
Qed.

Lemma substring_prefix_split (s : string) : forall n : nat,
  exists post, s = substring 0 n s +:+ post.
Proof.
  induction s as [| c s IH]; intros [| n]; simpl.
  - exists EmptyString. reflexivity.
  - exists EmptyString. reflexivity.
  - exists (String c s). reflexivity.
  - destruct (IH n) as (post & Hs). exists post.
    change (String c s = String c (substring 0 n s +:+ post)).
    f_equal. exact Hs.
Qed.

Lemma substring_split (s : string) : forall (m n : nat) (t : string),
  substring m n s = t -> exists pre post, s = pre +:+ t +:+ post.
Proof.
  induction s as [| c s IH]; intros m n t Hsub.
  - destruct m, n; simpl in Hsub; subst t;
      exists EmptyString, EmptyString; reflexivity.
  - destruct m as [| m].
    + destruct (substring_prefix_split (String c s) n) as (post & Hs).
      rewrite Hsub in Hs. exists EmptyString, post. exact Hs.
    + simpl in Hsub.
      destruct (IH m n t Hsub) as (pre & post & Hs).
      exists (String c pre), post.
      change (String c s = String c (pre +:+ t +:+ post)).
      f_equal. exact Hs.
Qed.

(** [find] answers with a position exactly when the needle occurs
    somewhere in the string. *)
Lemma found_find_iff (s needle : string) :
  needle <> EmptyString ->
  found (find s needle) = true
  <-> exists pre post, s = pre +:+ needle +:+ post.
Proof.
  intros Hne. unfold find. split.
  - destruct (index 0 needle s) as [m |] eqn:Hi; [| discriminate].
    intros _. apply index_correct1 in Hi.
    eapply substring_split; exact Hi.
  - intros (pre & post & ->).
    destruct (index 0 needle (pre +:+ needle +:+ post)) eqn:Hi;
      [reflexivity |].
    exfalso.
    apply (index_correct3 0 (String.length pre) _ _ Hi Hne (Nat.le_0_l _)).
    apply substring_app_middle.
Qed.

Lemma in_lib_tools_or_def_iff (filename : string) :
  Idt.in_lib_tools_or_def filename = true
  <-> exists pre post,
        filename = pre +:+ "/lib/" +:+ post
        \/ filename = pre +:+ "/tools/" +:+ post
        \/ filename = pre +:+ ".def" +:+ post.
Proof.
  unfold Idt.in_lib_tools_or_def. rewrite !orb_true_iff.
  rewrite !found_find_iff by discriminate.
  split.
  - intros [[(pre & post & H) | (pre & post & H)] | (pre & post & H)];
      exists pre, post; tauto.
  - intros (pre & post & [H | [H | H]]); [left; left | left; right | right];
      exists pre, post; exact H.
Qed.

(** X1.  The file-name test is a substring test: a declaration of any
    kind whose file name contains [/lib/], [/tools/] or [.def] anywhere
    is skipped by every callback, whatever its other attributes. *)
Theorem internal_path_skipped (opts : Idt.Options) (D : Decl)
    (pre post : string) :
  getFilename (get_location D) = pre +:+ "/lib/" +:+ post
  \/ getFilename (get_location D) = pre +:+ "/tools/" +:+ post
  \/ getFilename (get_location D) = pre +:+ ".def" +:+ post ->
  Idt.classify opts D = Skip
  /\ Forall (fun v => v = Skip) (Idt.callbacks opts D).
Proof.
  intros Hname.
  assert (Hp : Idt.in_lib_tools_or_def (getFilename (get_location D)) = true).
  { apply in_lib_tools_or_def_iff. exists pre, post. exact Hname. }
  unfold Idt.callbacks. open_idt. rewrite Hp.
  split; destruct (kind D); repeat constructor; walk_guards.
Qed.

Lemma internal_path_skipped_witness :
  Idt.classify classes_only class_table = Skip.
Proof.
  apply (proj1 (internal_path_skipped classes_only class_table
                  "/src/include/Intrinsics" ".h"
                  (or_intror (or_intror eq_refl)))).
Defined.

(** ** The decision table of functions and methods *)

(** X2.  A function or method is reported as unexported exactly when no
    guard applies to it, in whatever order the guards are listed: it comes
    from a file outside the excluded paths and system headers, is not in
    a dependent context, has no body, is no friend, is neither deleted nor
    defaulted, carries none of the three attributes, is not in the
    built-in list and, for a method, members are being annotated and the
    method is neither private nor pure.  The fix-it then is the one of
    C6 and C8. *)
Theorem function_reported_iff (opts : Idt.Options) (FD : Decl) ip text :
  kind FD = Function \/ kind FD = CXXMethod ->
  Idt.classify opts FD = FlagUnexported ip text
  <-> (Idt.in_lib_tools_or_def (getFilename (get_location FD)) = false
       /\ isInSystemHeader (get_location FD) = false
       /\ isDependentContext FD = false
       /\ doesThisDeclarationHaveABody FD = false
       /\ getFriendObjectKind FD = FOK_None
       /\ isDeleted FD = false /\ isDefaulted FD = false
       /\ (kind FD = CXXMethod ->
           Idt.annotateClasses opts = false
           /\ getAccess FD <> AS_private /\ isPure FD = false)
       /\ annotated FD = false
       /\ (getNameAsString FD ∉ Idt.kIgnoredFunctions)
       /\ ip = (if is_TK_NonTemplate FD
                then getBeginLoc FD else getInnerLocStart FD)
       /\ text = Idt.export_macro opts +:+ " ").
Proof.
  intros Hk.
  assert (Hc : Idt.classify opts FD = Idt.VisitFunctionDecl opts FD).
  { unfold Idt.classify. destruct Hk as [-> | ->]; reflexivity. }
  rewrite Hc. clear Hc.
  unfold Idt.VisitFunctionDecl, isa_FriendDecl, dyn_cast_CXXMethodDecl,
    Idt.contains.
  destruct Hk as [Hk | Hk]; rewrite Hk; cbv beta iota zeta; split.
  1, 3: intros H; peel_guards H; injection H as <- <-;
    repeat match goal with
      | E : (_ || _) = false |- _ => apply orb_false_elim in E; destruct E
      | E : negb _ = false |- _ => apply negb_false_iff in E
      | E : bool_decide _ = false |- _ => apply bool_decide_eq_false_1 in E
      end;
    unfold annotated, is_FOK_None, is_private in *;
    repeat match goal with
      | E : ?x = false |- context [?x] => rewrite E
      end;
    repeat split; try reflexivity; try assumption; try discriminate;
    try (destruct (getFriendObjectKind FD); congruence);
    destruct (getAccess FD); congruence.
  all: intros (E1 & E2 & E3 & E4 & E5 & E6 & E7 & Hm & E8 & E9 & -> & ->);
    unfold annotated in E8; unfold is_FOK_None, is_private;
    rewrite E1, E2, E3, E4, E5, E6, E7, E8; simpl;
    rewrite (bool_decide_eq_false_2 _ E9); try reflexivity.
  destruct (Hm eq_refl) as (-> & Hacc & ->).
  destruct (getAccess FD); try reflexivity. congruence.
Qed.

Lemma function_reported_iff_witness :
  Idt.classify members_only void_f = FlagUnexported 100 "EXPORT ".
Proof.
  apply (function_reported_iff members_only void_f 100 "EXPORT "
           (or_introl eq_refl)).
  repeat split; try reflexivity; discriminate.
Defined.



(** X4.  The exported-private remark is given to nothing but a private
    method that carries the dllexport attribute, in a run that annotates
    members, and only when no guard in front of the private-member test
    fires. *)
Theorem exported_private_only (opts : Idt.Options) (D : Decl) :
  Idt.classify opts D = FlagOverExportedPrivate ->
  kind D = CXXMethod /\ getAccess D = AS_private
  /\ hasAttr DLLExportAttr D = true
  /\ reaches_private_check opts D = true.
Proof.
  unfold reaches_private_check. open_idt. unfold is_private, is_FOK_None.
  intros H. peel_guards H. simpl.
  repeat match goal with
    | E : (_ || _) = false |- _ => apply orb_false_elim in E; destruct E
    | E : negb _ = false |- _ => apply negb_false_iff in E
    end.
  repeat match goal with
    | E : ?x = _ |- context [?x] => rewrite E
    end.
  destruct (getAccess D); try discriminate.
  repeat split.
Qed.

Lemma exported_private_only_witness :
  kind (hidden_method true false) = CXXMethod
  /\ getAccess (hidden_method true false) = AS_private
  /\ hasAttr DLLExportAttr (hidden_method true false) = true
  /\ reaches_private_check members_only (hidden_method true false) = true.
Proof.
  apply (exported_private_only members_only (hidden_method true false)).
  reflexivity.
Defined.

(** ** Records, variables and class template specializations *)

(** X5.  A record is reported exactly when classes are being annotated
    and the record is a complete, top-level definition of a struct, class
    or interface that comes from an included file outside the excluded
    paths and system headers, is not named [LLVM_ABI], carries none of
    the three attributes and is no explicit instantiation.  Forward
    declarations, nested records, unions and records of the main file
    are never reported. *)
Theorem record_reported_iff (opts : Idt.Options) (CD : Decl) ip text :
  kind CD = CXXRecord ->
  Idt.classify opts CD = FlagUnexported ip text
  <-> (Idt.annotateClasses opts = true
       /\ getNameAsString CD <> "LLVM_ABI"
       /\ Idt.in_lib_tools_or_def (getFilename (get_location CD)) = false
       /\ isInSystemHeader (get_location CD) = false
       /\ isCompleteDefinition CD = true
       /\ parent_isa_RecordDecl CD = false
       /\ annotated CD = false
       /\ getTagKind CD <> TTK_Union
       /\ getIncludeLoc CD <> 0
       /\ getTemplateSpecializationKind CD
          <> TSK_ExplicitInstantiationDeclaration
       /\ getTemplateSpecializationKind CD
          <> TSK_ExplicitInstantiationDefinition
       /\ ip = getLocWithOffset (getBeginLoc CD) (if isStruct CD then 7 else 6)
       /\ text = Idt.export_macro opts +:+ " ").
Proof.
  intros Hk. unfold Idt.classify. rewrite Hk.
  unfold Idt.VisitCXXRecordDecl, annotated, isUnion, isInvalid,
    is_explicit_instantiation.
  cbv zeta. split.
  - intros H. peel_guards H. injection H as <- <-.
    repeat match goal with
      | E : (_ || _) = false |- _ => apply orb_false_elim in E; destruct E
      | E : negb _ = false |- _ => apply negb_false_iff in E
      | E : String.eqb _ _ = false |- _ => apply String.eqb_neq in E
      | E : (_ =? _) = false |- _ => apply Z.eqb_neq in E
      end.
    repeat match goal with
      | E : ?x = false |- context [?x] => rewrite E
      end.
    repeat split; try reflexivity; try assumption;
      destruct (getTagKind CD), (getTemplateSpecializationKind CD);
      congruence.
  - intros (E1 & E2 & E3 & E4 & E5 & E6 & E7 & E8 & E9 & E10 & E11 & -> & ->).
    apply String.eqb_neq in E2. apply Z.eqb_neq in E9.
    rewrite E1, E2, E3, E4, E5, E6, E7, E9. simpl.
    destruct (getTagKind CD), (getTemplateSpecializationKind CD);
      try reflexivity; congruence.
Qed.

Lemma record_reported_iff_witness :
  Idt.annotateClasses classes_only = true
  /\ isCompleteDefinition struct_point = true.
Proof.
  pose proof (proj1 (record_reported_iff classes_only struct_point 607
                       "EXPORT " eq_refl) eq_refl) as H.
  split; [exact (proj1 H) | exact (proj1 (proj2 (proj2 (proj2 (proj2 H)))))].
Defined.

(** X6.  A variable is reported exactly when it has external storage,
    carries none of the three attributes and its file is outside the
    excluded paths; parameters, locals and other variables without
    [extern] storage are never reported.  The fix-it is inserted at the
    begin location of the declaration. *)
Theorem variable_reported_iff (opts : Idt.Options) (VD : Decl) ip text :
  kind VD = Var ->
  Idt.classify opts VD = FlagUnexported ip text
  <-> (Idt.in_lib_tools_or_def (getFilename (get_location VD)) = false
       /\ annotated VD = false
       /\ hasExternalStorage VD = true
       /\ ip = getBeginLoc VD
       /\ text = Idt.export_macro opts +:+ " ").
Proof.
  intros Hk. unfold Idt.classify. rewrite Hk.
  unfold Idt.VisitVarDecl, annotated. cbv zeta. split.
  - intros H. peel_guards H. injection H as <- <-.
    match goal with
    | E : negb _ = false |- _ => apply negb_false_iff in E
    end.
    repeat split; assumption.
  - intros (-> & -> & -> & -> & ->). reflexivity.
Qed.

Lemma variable_reported_iff_witness :
  hasExternalStorage environ = true /\ 9000 = getBeginLoc environ.
Proof.
  pose proof (proj1 (variable_reported_iff members_only environ 9000
                       "EXPORT " eq_refl) eq_refl) as H.
  split; [exact (proj1 (proj2 (proj2 H)))
         | exact (proj1 (proj2 (proj2 (proj2 H))))].
Defined.

(** X7.  A class template specialization outside the excluded paths that
    carries no attribute is always reported, whatever its specialization
    kind, its header and the options; the fix-it is placed at the
    location of the [extern] keyword and does not depend on the class-key
    of the template, so for a specialization written without [extern] it
    is placed at the invalid location. *)
Theorem specialization_reported_at_extern (opts : Idt.Options) (CTSD : Decl) :
  kind CTSD = ClassTemplateSpecialization ->
  Idt.in_lib_tools_or_def (getFilename (get_location CTSD)) = false ->
  annotated CTSD = false ->
  Idt.classify opts CTSD
  = FlagUnexported (getExternLoc CTSD) (Idt.export_macro opts +:+ " ")
  /\ (isInvalid (getExternLoc CTSD) = true ->
      exists ip, Idt.classify opts CTSD
                 = FlagUnexported ip (Idt.export_macro opts +:+ " ")
                 /\ isInvalid ip = true).
Proof.
  intros Hk Hp Ha. unfold Idt.classify. rewrite Hk.
  unfold Idt.VisitClassTemplateSpecializationDecl. unfold annotated in Ha.
  cbv zeta. rewrite Hp, Ha. split; [reflexivity |].
  intros Hinv. exists (getExternLoc CTSD). split; [reflexivity | exact Hinv].
Qed.

Lemma specialization_reported_at_extern_witness :
  exists ip, Idt.classify classes_only vec_bool = FlagUnexported ip "EXPORT "
             /\ isInvalid ip = true.
Proof.
  apply (proj2 (specialization_reported_at_extern classes_only vec_bool
                  eq_refl eq_refl eq_refl)).
  reflexivity.
Defined.

(** ** The [-ignore] option *)

Lemma CommaSeparated_nonempty (Value : string) :
  IdtIgnore.CommaSeparated Value <> [].
Proof.
  destruct Value as [| c Val]; simpl; [discriminate |].
  destruct (Ascii.eqb c ","%char); [discriminate |].
  destruct (IdtIgnore.CommaSeparated Val); discriminate.
Qed.

Lemma CommaSeparated_app (a b : string) :
  IdtIgnore.CommaSeparated (a +:+ "," +:+ b)
  = (IdtIgnore.CommaSeparated a ++ IdtIgnore.CommaSeparated b)%list.
Proof.
  induction a as [| c a IH].
  - reflexivity.
  - change (String c a +:+ "," +:+ b) with (String c (a +:+ "," +:+ b)).
    simpl. rewrite IH.
    destruct (Ascii.eqb c ","%char); [reflexivity |].
    pose proof (CommaSeparated_nonempty a) as Hne.
    destruct (IdtIgnore.CommaSeparated a); [congruence | reflexivity].
Qed.

(** X8.  One [-ignore] flag whose value joins the names with commas
    gives the same list, hence the same set, as one [-ignore] flag per
    name. *)
Theorem comma_joined_same_as_repeated (names : list string) :
  names <> [] ->
  IdtIgnore.parse_ignore [String.concat "," names]
  = IdtIgnore.parse_ignore names
  /\ IdtIgnore.get_ignored_functions (ignoring [String.concat "," names])
     = IdtIgnore.get_ignored_functions (ignoring names).
Proof.
  intros Hne.
  assert (H : IdtIgnore.parse_ignore [String.concat "," names]
              = IdtIgnore.parse_ignore names).
  { unfold IdtIgnore.parse_ignore. simpl. rewrite app_nil_r.
    induction names as [| x rest IH]; [congruence |].
    destruct rest as [| y rest].
    - simpl. rewrite app_nil_r. reflexivity.
    - change (String.concat "," (x :: y :: rest))
        with (x +:+ "," +:+ String.concat "," (y :: rest)).
      rewrite CommaSeparated_app, IH by discriminate. reflexivity. }
  split; [exact H |].
  unfold IdtIgnore.get_ignored_functions.
  change (IdtIgnore.ignored_functions (ignoring [String.concat "," names]))
    with (IdtIgnore.parse_ignore [String.concat "," names]).
  rewrite H. reflexivity.
Qed.

Lemma comma_joined_same_as_repeated_witness :
  IdtIgnore.parse_ignore ["f,g,h"] = IdtIgnore.parse_ignore ["f"; "g"; "h"].
Proof.
  apply (proj1 (comma_joined_same_as_repeated ["f"; "g"; "h"]
                  ltac:(discriminate))).
Defined.

(** X9.  Cutting a value at its commas loses nothing: joining the
    pieces with commas gives the value back, there is always at least one
    piece (the empty value gives one empty name) and no piece contains a
    comma. *)
Theorem CommaSeparated_round_trip (Value : string) :
  String.concat "," (IdtIgnore.CommaSeparated Value) = Value
  /\ IdtIgnore.CommaSeparated Value <> []
  /\ Forall (fun piece => ~ In ","%char (list_ascii_of_string piece))
        (IdtIgnore.CommaSeparated Value).
Proof.
  split; [| split; [apply CommaSeparated_nonempty |]].
  - induction Value as [| c Val IH]; [reflexivity |].
    simpl. pose proof (CommaSeparated_nonempty Val) as Hne.
    destruct (Ascii.eqb c ","%char) eqn:Hc.
    + apply Ascii.eqb_eq in Hc. subst c.
      destruct (IdtIgnore.CommaSeparated Val) as [| p ps] eqn:Hcs;
        [congruence |].
      change (String.concat "," (EmptyString :: p :: ps))
        with ("," +:+ String.concat "," (p :: ps)).
      rewrite IH. reflexivity.
    + destruct (IdtIgnore.CommaSeparated Val) as [| p ps] eqn:Hcs;
        [congruence |].
      destruct ps as [| q ps].
      * simpl in IH. subst p. reflexivity.
      * change (String.concat "," (String c p :: q :: ps))
          with (String c (p +:+ "," +:+ String.concat "," (q :: ps))).
        f_equal. exact IH.
  - induction Value as [| c Val IH]; simpl.
    + repeat constructor. simpl. tauto.
    + destruct (Ascii.eqb c ","%char) eqn:Hc.
      * constructor; [simpl; tauto | exact IH].
      * apply Ascii.eqb_neq in Hc.
        destruct (IdtIgnore.CommaSeparated Val) as [| p ps].
        -- repeat constructor. simpl. intros [H | []]. congruence.
        -- inversion IH as [| ? ? Hp Hps]; subst.
           constructor; [| exact Hps].
           simpl. intros [H | H]; [congruence | exact (Hp H)].
Qed.

Ltac open_ignore :=
  unfold IdtIgnore.VisitFunctionDecl, IdtIgnore.contains,
    dyn_cast_CXXMethodDecl, isa_FriendDecl in *.

(** X10.  Ignoring more names never adds a remark: when every name
    ignored under [opts] is ignored under [opts'], the verdict under
    [opts'] is either [Skip] or the verdict under [opts]. *)
Theorem ignoring_more_reports_less (opts opts' : IdtIgnore.Options) (FD : Decl) :
  IdtIgnore.export_macro opts' = IdtIgnore.export_macro opts ->
  (forall name : string,
     name ∈ IdtIgnore.ignored_functions opts ->
     name ∈ IdtIgnore.ignored_functions opts') ->
  IdtIgnore.VisitFunctionDecl opts' FD = Skip
  \/ IdtIgnore.VisitFunctionDecl opts' FD = IdtIgnore.VisitFunctionDecl opts FD.
Proof.
  intros Hmacro Hsub. open_ignore. rewrite Hmacro.
  destruct (bool_decide (getNameAsString FD ∈ IdtIgnore.get_ignored_functions opts))
    eqn:Hc;
  destruct (bool_decide (getNameAsString FD ∈ IdtIgnore.get_ignored_functions opts'))
    eqn:Hc'.
  2: { apply bool_decide_eq_true_1 in Hc. apply bool_decide_eq_false_1 in Hc'.
       exfalso. apply Hc'. apply get_ignored_functions_elem, Hsub,
         get_ignored_functions_elem, Hc. }
  all: repeat match goal with
         | |- context [if ?c then _ else _] => destruct c
         | |- context [match ?k with Function => _ | _ => _ end] => destruct k
         end; tauto.
Qed.

Lemma ignoring_more_reports_less_witness :
  IdtIgnore.VisitFunctionDecl (ignoring ["f"; "g"]) void_f = Skip
  \/ IdtIgnore.VisitFunctionDecl (ignoring ["f"; "g"]) void_f
     = IdtIgnore.VisitFunctionDecl (ignoring ["g"]) void_f.
Proof.
  apply (ignoring_more_reports_less (ignoring ["g"]) (ignoring ["f"; "g"])
           void_f); [reflexivity |].
  intros name H. simpl in *. apply elem_of_cons. right. exact H.
Defined.

(** X11.  The ignore list does not hide an exported private method: the
    private-member test comes first, so the exported-private remark is
    given under every setting of the options, also when the method is
    named in the list. *)
Theorem exported_private_not_ignorable (opts opts' : IdtIgnore.Options)
    (MD : Decl) :
  IdtIgnore.VisitFunctionDecl opts MD = FlagOverExportedPrivate ->
  IdtIgnore.VisitFunctionDecl opts' MD = FlagOverExportedPrivate.
Proof.
  open_ignore. intros H. peel_guards H; reflexivity.
Qed.

Lemma exported_private_not_ignorable_witness :
  IdtIgnore.VisitFunctionDecl (ignoring ["hidden"]) (hidden_method true false)
  = FlagOverExportedPrivate.
Proof.
  apply (exported_private_not_ignorable (ignoring [])
           (ignoring ["hidden"]) (hidden_method true false)).
  reflexivity.
Defined.

(** ** Friends *)

(** X12.  Only the [-annotate-classes] revision ignores friend
    declarations.  In the [-ignore] revision and in the libtool revision
    the friend test is an [isa<FriendDecl>] on a function declaration,
    which never holds: their verdict is the same whether or not the
    function is declared through a friend declaration.  The
    [-annotate-classes] revision adds the test of the friend object kind
    and skips every such function or method. *)
Theorem friend_guard (K : FriendObjectKind) (FD : Decl) :
  (forall opts,
     IdtIgnore.VisitFunctionDecl opts (befriend K FD)
     = IdtIgnore.VisitFunctionDecl opts FD)
  /\ (forall opts,
        LibtoolFixit.VisitFunctionDecl opts (befriend K FD)
        = LibtoolFixit.VisitFunctionDecl opts FD
        /\ LibtoolFixit.VisitCXXMethodDecl opts (befriend K FD)
           = LibtoolFixit.VisitCXXMethodDecl opts FD)
  /\ (forall opts,
        K <> FOK_None ->
        kind FD = Function \/ kind FD = CXXMethod ->
        Idt.classify opts (befriend K FD) = Skip).
Proof.
  split.
  { intros opts. unfold IdtIgnore.VisitFunctionDecl, dyn_cast_CXXMethodDecl.
    simpl. destruct (kind FD); reflexivity. }
  split.
  { intros opts. unfold LibtoolFixit.VisitFunctionDecl,
      LibtoolFixit.VisitCXXMethodDecl. split; reflexivity. }
  intros opts HK Hk. unfold Idt.classify, Idt.VisitFunctionDecl, is_FOK_None.
  simpl. destruct Hk as [-> | ->]; destruct K; try congruence;
    simpl; walk_guards.
Qed.

Lemma friend_guard_witness :
  Idt.classify members_only (befriend FOK_Undeclared void_f) = Skip.
Proof.
  apply (proj2 (proj2 (friend_guard FOK_Undeclared void_f)) members_only);
    [discriminate | left; reflexivity].
Defined.

(** ** The libtool revisions *)

Ltac open_libtool :=
  unfold LibtoolFixit.VisitFunctionDecl, LibtoolFixit.VisitCXXMethodDecl,
    Libtool.VisitFunctionDecl, Libtool.VisitCXXMethodDecl,
    LibtoolFixit.kIgnoredFunctions, Libtool.kIgnoredFunctions,
    isa_FriendDecl in *.

(** X13.  The function callback of both libtool revisions leaves every
    method to the method callback: on a method it reports nothing, so a
    method is reported at most once although both callbacks visit it. *)
Theorem methods_left_to_method_callback
    (opts : LibtoolFixit.Options) (native : string -> string) (MD : Decl) :
  kind MD = CXXMethod ->
  LibtoolFixit.VisitFunctionDecl opts MD = Skip
  /\ Libtool.VisitFunctionDecl native MD = [].
Proof.
  intros Hk. open_libtool. unfold isa_CXXMethodDecl. rewrite Hk.
  split; walk_guards.
Qed.

Lemma methods_left_to_method_callback_witness :
  LibtoolFixit.VisitFunctionDecl libtool_options (show_method false) = Skip
  /\ Libtool.VisitFunctionDecl id (show_method false) = [].
Proof.
  apply (methods_left_to_method_callback libtool_options id
           (show_method false)).
  reflexivity.
Defined.

(** X14.  The report-only tool prints a line for every declaration the
    fix-it revision reports as unexported.  For free functions the two
    agree exactly: the fix-it revision reports the function, with the
    macro inserted at its begin location, if and only if the report-only
    tool prints its line. *)
Theorem report_only_covers_fixit
    (opts : LibtoolFixit.Options) (native : string -> string) (D : Decl)
    ip text :
  (LibtoolFixit.VisitFunctionDecl opts D = FlagUnexported ip text
   <-> Libtool.VisitFunctionDecl native D
       = Libtool.diagnose native D (get_location D)
       /\ ip = getBeginLoc D
       /\ text = LibtoolFixit.export_macro opts +:+ " ")
  /\ (LibtoolFixit.VisitCXXMethodDecl opts D = FlagUnexported ip text ->
      Libtool.VisitCXXMethodDecl native D
      = Libtool.diagnose native D (get_location D)).
Proof.
  open_libtool. cbv zeta. split; [split |].
  - intros H. peel_guards H. injection H as <- <-.
    repeat match goal with
      | E : ?x = false |- context [?x] => rewrite E
      end.
    repeat split.
  - intros (H & -> & ->). revert H. unfold Libtool.diagnose.
    repeat match goal with
      | |- context [if ?c then _ else _] => destruct c eqn:?
      end; try discriminate; reflexivity.
  - intros H. peel_guards H.
    repeat match goal with
      | E : (_ || _) = false |- _ => apply orb_false_elim in E; destruct E
      end.
    repeat match goal with
      | E : ?x = false |- context [?x] => rewrite E
      end.
    rewrite andb_false_r. reflexivity.
Qed.

Lemma report_only_covers_fixit_witness :
  Libtool.VisitFunctionDecl id void_f
  = Libtool.diagnose id void_f (get_location void_f)
  /\ Libtool.VisitCXXMethodDecl id (show_method false)
     = Libtool.diagnose id (show_method false)
         (get_location (show_method false)).
Proof.
  split.
  - apply (proj1 (proj1 (report_only_covers_fixit libtool_options id void_f
                           100 "EXPORT ")) eq_refl).
  - apply (proj2 (report_only_covers_fixit libtool_options id
                    (show_method false) 460 "EXPORT ") eq_refl).
Defined.

(** ** The two revisions of [idt.cc] against each other *)

(** X15.  On functions and methods the [-annotate-classes] revision is
    the stricter one: when the [-ignore] revision is run with names from
    the built-in list only and no redeclaration of the function has a
    body, every remark of the [-annotate-classes] revision is given by
    the [-ignore] revision as well, with the same fix-it. *)
Theorem annotate_revision_stricter
    (optsA : Idt.Options) (optsB : IdtIgnore.Options) (FD : Decl) :
  kind FD = Function \/ kind FD = CXXMethod ->
  IdtIgnore.export_macro optsB = Idt.export_macro optsA ->
  (forall name : string,
     name ∈ IdtIgnore.ignored_functions optsB ->
     name ∈ Idt.kIgnoredFunctions) ->
  hasBody FD = false ->
  Idt.classify optsA FD = Skip
  \/ IdtIgnore.VisitFunctionDecl optsB FD = Idt.classify optsA FD.
Proof.
  intros Hk Hmacro Hsub Hbody.
  assert (Hc : Idt.classify optsA FD = Idt.VisitFunctionDecl optsA FD).
  { unfold Idt.classify. destruct Hk as [-> | ->]; reflexivity. }
  rewrite Hc. clear Hc Hk.
  unfold Idt.VisitFunctionDecl, Idt.contains. open_ignore.
  rewrite Hmacro, Hbody.
  destruct (bool_decide (getNameAsString FD ∈ Idt.kIgnoredFunctions)) eqn:Ha;
  destruct (bool_decide
              (getNameAsString FD ∈ IdtIgnore.get_ignored_functions optsB))
    eqn:Hb.
  3: { apply bool_decide_eq_false_1 in Ha. apply bool_decide_eq_true_1 in Hb.
       exfalso. apply Ha, Hsub, get_ignored_functions_elem, Hb. }
  all: destruct (Idt.in_lib_tools_or_def _); [left; reflexivity |];
    destruct (isInSystemHeader _); [left; reflexivity |];
    destruct (isDependentContext FD); [left; reflexivity |];
    destruct (doesThisDeclarationHaveABody FD); [left; reflexivity |];
    destruct (is_FOK_None FD); [| left; reflexivity ];
    destruct (isDeleted FD || isDefaulted FD); [left; reflexivity |];
    simpl;
    destruct (kind FD); simpl;
    try destruct (Idt.annotateClasses optsA); simpl;
    try destruct (is_private FD); simpl;
    try destruct (isPure FD); simpl;
    destruct (has_DLLExportAttr FD), (has_DLLImportAttr FD),
      (has_VisibilityAttr FD); simpl; tauto.
Qed.

Lemma annotate_revision_stricter_witness :
  Idt.classify members_only (show_method false) = Skip
  \/ IdtIgnore.VisitFunctionDecl (ignoring ["__builtin_strlen"])
       (show_method false)
     = Idt.classify members_only (show_method false).
Proof.
  apply (annotate_revision_stricter members_only
           (ignoring ["__builtin_strlen"]) (show_method false));
    [right; reflexivity | reflexivity | | reflexivity].
  intros name H. simpl in H.
  apply elem_of_cons in H. destruct H as [-> | H].
  - vm_compute. reflexivity.
  - apply elem_of_nil in H. destruct H.
Defined.

(** The body test of the [-ignore] revision looks at every
    redeclaration: the member declared in the header and defined later in
    the same translation unit is skipped by it and reported by the
    [-annotate-classes] revision, so the last hypothesis of X15 is
    needed. *)
Lemma defined_later_differs :
  IdtIgnore.VisitFunctionDecl (ignoring []) (show_method true) = Skip
  /\ Idt.classify members_only (show_method true)
     = FlagUnexported 460 "EXPORT ".
Proof. split; reflexivity. Qed.

(** ** The older revisions on system headers and definitions *)

(** X16.  Every callback of the [-ignore] revision and of the two
    libtool revisions starts with the system-header test and has the body
    test in front of every remark: a declaration of a system header, or
    one that has a body in some redeclaration, gets no remark and no
    printed line from any of them. *)
Theorem older_revisions_skip_system_and_defined
    (optsB : IdtIgnore.Options) (optsL : LibtoolFixit.Options)
    (native : string -> string) (D : Decl) :
  isInSystemHeader (get_location D) = true \/ hasBody D = true ->
  IdtIgnore.VisitFunctionDecl optsB D = Skip
  /\ LibtoolFixit.VisitFunctionDecl optsL D = Skip
  /\ LibtoolFixit.VisitCXXMethodDecl optsL D = Skip
  /\ Libtool.VisitFunctionDecl native D = []
  /\ Libtool.VisitCXXMethodDecl native D = [].
Proof.
  intros [H | H]; open_ignore; open_libtool; rewrite H;
    repeat split;
    repeat match goal with
      | |- context [if ?c then _ else _] => destruct c; try reflexivity
      end.
Qed.

Lemma older_revisions_skip_system_and_defined_witness :
  IdtIgnore.VisitFunctionDecl (ignoring []) inline_g = Skip
  /\ LibtoolFixit.VisitFunctionDecl libtool_options inline_g = Skip
  /\ LibtoolFixit.VisitCXXMethodDecl libtool_options inline_g = Skip
  /\ Libtool.VisitFunctionDecl id inline_g = []
  /\ Libtool.VisitCXXMethodDecl id inline_g = [].
Proof.
  apply (older_revisions_skip_system_and_defined (ignoring [])
           libtool_options id inline_g).
  right. reflexivity.
Defined.

(** X17.  The report-only tool prints the line of a method exactly when
    the method is outside system headers and dependent contexts, has no
    body, is neither deleted nor defaulted and carries neither the
    dllexport nor the dllimport attribute; otherwise it prints nothing.
    Access and purity play no part: private and pure virtual methods are
    printed like any other. *)
Theorem report_only_method_printed_iff
    (native : string -> string) (MD : Decl) :
  (Libtool.VisitCXXMethodDecl native MD
   = Libtool.diagnose native MD (get_location MD)
   <-> isInSystemHeader (get_location MD) = false
       /\ isDependentContext MD = false
       /\ hasBody MD = false
       /\ isDeleted MD = false /\ isDefaulted MD = false
       /\ hasAttr DLLExportAttr MD = false
       /\ hasAttr DLLImportAttr MD = false)
  /\ (Libtool.VisitCXXMethodDecl native MD
      <> Libtool.diagnose native MD (get_location MD) ->
      Libtool.VisitCXXMethodDecl native MD = []).
Proof.
  split.
  - unfold Libtool.VisitCXXMethodDecl, Libtool.diagnose. cbv zeta. split.
    + intros H. peel_guards H.
      repeat match goal with
        | E : (_ || _) = false |- _ => apply orb_false_elim in E; destruct E
        end.
      repeat split; assumption.
    + intros (-> & -> & -> & -> & -> & -> & ->).
      rewrite andb_false_r. reflexivity.
  - intros Hne. destruct (report_only_method_output native MD) as [H | H];
      [exact H | contradiction].
Qed.

Lemma report_only_method_printed_iff_witness :
  Libtool.VisitCXXMethodDecl id (hidden_method false false)
  = Libtool.diagnose id (hidden_method false false)
      (get_location (hidden_method false false)).
Proof.
  apply (proj2 (proj1 (report_only_method_printed_iff id
                         (hidden_method false false)))).
  repeat split.
Defined.

(** ** Two remarks for one declaration *)

(** X18.  A class template specialization is a record as well, so both
    callbacks run on it.  When classes are annotated and the
    specialization passes the record guards (for instance an explicit
    specialization defined in a header), it is reported twice: once with
    the macro after its class-key and once with the macro at the location
    of the [extern] keyword. *)
Theorem specialization_reported_twice (opts : Idt.Options) (CTSD : Decl) :
  kind CTSD = ClassTemplateSpecialization ->
  Idt.annotateClasses opts = true ->
  getNameAsString CTSD <> "LLVM_ABI" ->
  Idt.in_lib_tools_or_def (getFilename (get_location CTSD)) = false ->
  isInSystemHeader (get_location CTSD) = false ->
  isCompleteDefinition CTSD = true ->
  parent_isa_RecordDecl CTSD = false ->
  annotated CTSD = false ->
  getTagKind CTSD <> TTK_Union ->
  getIncludeLoc CTSD <> 0 ->
  is_explicit_instantiation CTSD = false ->
  Idt.callbacks opts CTSD
  = [ FlagUnexported
        (getLocWithOffset (getBeginLoc CTSD) (if isStruct CTSD then 7 else 6))
        (Idt.export_macro opts +:+ " ");
      FlagUnexported (getExternLoc CTSD) (Idt.export_macro opts +:+ " ") ].
Proof.
  intros Hk E1 E2 E3 E4 E5 E6 E7 E8 E9 E10.
  unfold Idt.callbacks. rewrite Hk.
  unfold Idt.VisitCXXRecordDecl, Idt.VisitClassTemplateSpecializationDecl,
    isUnion, isInvalid.
  unfold annotated in E7.
  apply String.eqb_neq in E2. apply Z.eqb_neq in E9.
  rewrite E1, E2, E3, E4, E5, E6, E7, E9, E10. simpl.
  destruct (getTagKind CTSD); try reflexivity. congruence.
Qed.

Lemma specialization_reported_twice_witness :
  Idt.callbacks classes_only vec_bool
  = [FlagUnexported 806 "EXPORT "; FlagUnexported 0 "EXPORT "].
Proof.
  apply (specialization_reported_twice classes_only vec_bool);
    try reflexivity; discriminate.
Defined.
